(** * weather_agent: the lookup table and the remote-first resolver

    A shallow embedding of [weather_agent/__init__.py].

    - Python [str] values are lists of Unicode code points.
    - [str.strip] is written out over CPython's whitespace set;
      [str.lower] depends on the Unicode tables of the interpreter and is
      a variable of the development, constrained only where a result
      needs it.
    - [dict] is an association list in insertion order.
    - Exceptions are values of [exn]; code that can raise returns a
      [result]; code that reads the mapping held by a dataset runs in a
      small state-and-error monad over that mapping.
    - The agent runtime is an external collaborator: a record of the
      operations [query_weather] invokes on it, each of which may raise. *)

From Stdlib Require Import List NArith Bool String Lia.
From Stdlib.Strings Require Import Byte.
Import ListNotations.
Local Open Scope N_scope.

Set Implicit Arguments.

(* ================================================================== *)
(** ** Python strings *)

(** A [str] is a sequence of code points. *)
Definition str : Type := list N.

Fixpoint str_eqb (a b : str) : bool :=
  match a, b with
  | [], [] => true
  | x :: a', y :: b' => (x =? y) && str_eqb a' b'
  | _, _ => false
  end.

(** Source literals are written as UTF-8 text and decoded to code points,
    so that the tables below read like the Python file. *)
Module Utf8.

Definition cont (b : N) : N := N.land b 0x3F.

Fixpoint decode (bs : list N) : str :=
  match bs with
  | [] => []
  | b0 :: r0 =>
      if b0 <? 0x80 then b0 :: decode r0
      else if b0 <? 0xE0 then
        match r0 with
        | b1 :: r1 =>
            N.lor (N.shiftl (N.land b0 0x1F) 6) (cont b1) :: decode r1
        | _ => []
        end
      else if b0 <? 0xF0 then
        match r0 with
        | b1 :: b2 :: r2 =>
            N.lor (N.shiftl (N.land b0 0x0F) 12)
              (N.lor (N.shiftl (cont b1) 6) (cont b2)) :: decode r2
        | _ => []
        end
      else
        match r0 with
        | b1 :: b2 :: b3 :: r3 =>
            N.lor (N.shiftl (N.land b0 0x07) 18)
              (N.lor (N.shiftl (cont b1) 12)
                 (N.lor (N.shiftl (cont b2) 6) (cont b3))) :: decode r3
        | _ => []
        end
  end.

End Utf8.

(** [u "text"] is the Python literal ["text"]. *)
Definition u (s : string) : str :=
  Utf8.decode (map Byte.to_N (list_byte_of_string s)).

(** [Py_UNICODE_ISSPACE]: the code points [str.strip()] removes. *)
Definition isspace (c : N) : bool :=
  ((0x09 <=? c) && (c <=? 0x0D))
  || ((0x1C <=? c) && (c <=? 0x20))
  || (c =? 0x85) || (c =? 0xA0) || (c =? 0x1680)
  || ((0x2000 <=? c) && (c <=? 0x200A))
  || (c =? 0x2028) || (c =? 0x2029) || (c =? 0x202F)
  || (c =? 0x205F) || (c =? 0x3000).

Fixpoint lstrip (s : str) : str :=
  match s with
  | [] => []
  | c :: r => if isspace c then lstrip r else s
  end.

(** A string that does not start with whitespace; [lstrip] leaves exactly
    these alone. *)
Definition starts_clean (s : str) : Prop :=
  match s with
  | [] => True
  | c :: _ => isspace c = false
  end.

Definition rstrip (s : str) : str := rev (lstrip (rev s)).

(** [s.strip()] with no argument. *)
Definition strip (s : str) : str := rstrip (lstrip s).

(** [s.lower()] on strings made of ASCII and uncased code points (CJK
    text among them), where it only moves [A-Z] to [a-z].  It is the
    instance at which the development is run on concrete inputs. *)
Definition ascii_lower_cp (c : N) : N :=
  if (0x41 <=? c) && (c <=? 0x5A) then c + 0x20 else c.

Definition ascii_lower (s : str) : str := map ascii_lower_cp s.

(** [t.startswith(s)]. *)
Fixpoint startswith (t s : str) {struct s} : bool :=
  match s, t with
  | [], _ => true
  | x :: s', y :: t' => (x =? y) && startswith t' s'
  | _ :: _, [] => false
  end.

(* ================================================================== *)
(** ** Exceptions and results *)

Inductive exn : Type :=
| ValueError (msg : str)
| RuntimeError (msg : str)
| AttributeError
| KeyError (key : str)
| UnboundLocalError
| OtherException (name : string)
    (** any other class derived from [Exception] *)
| SystemExiting (name : string).
    (** [KeyboardInterrupt], [SystemExit], [GeneratorExit]: derived from
        [BaseException] but not from [Exception] *)

(** [isinstance(e, Exception)]. *)
Definition is_Exception (e : exn) : bool :=
  match e with
  | SystemExiting _ => false
  | _ => true
  end.

Inductive result (A : Type) : Type :=
| Return (a : A)
| Raise (e : exn).

Arguments Return {A} a.
Arguments Raise {A} e.

Definition rbind {A B : Type} (r : result A) (k : A -> result B) : result B :=
  match r with
  | Return a => k a
  | Raise e => Raise e
  end.

Declare Scope result_scope.
Delimit Scope result_scope with result.
Notation "x <- c ;; k" := (rbind c (fun x => k))
  (at level 61, c at next level, right associativity) : result_scope.

(** [try: body  except Exception: handler]. *)
Definition try_except_Exception {A : Type} (body handler : result A) : result A :=
  match body with
  | Return a => Return a
  | Raise e => if is_Exception e then handler else Raise e
  end.

(* ================================================================== *)
(** ** Dictionaries *)

(** A [Dict[str, V]]: the items in insertion order. *)
Definition pydict (V : Type) : Type := list (str * V).

Fixpoint dict_get {V : Type} (k : str) (d : pydict V) : option V :=
  match d with
  | [] => None
  | (k', v) :: r => if str_eqb k k' then Some v else dict_get k r
  end.

(** [k in d]. *)
Definition dict_contains {V : Type} (k : str) (d : pydict V) : bool :=
  match dict_get k d with
  | Some _ => true
  | None => false
  end.

(** [d[k] = v]: an existing key keeps its position. *)
Fixpoint dict_set {V : Type} (k : str) (v : V) (d : pydict V) : pydict V :=
  match d with
  | [] => [(k, v)]
  | (k', v') :: r =>
      if str_eqb k k' then (k', v) :: r else (k', v') :: dict_set k v r
  end.

(** [del d[k]] (for a key that may be absent). *)
Fixpoint dict_del {V : Type} (k : str) (d : pydict V) : pydict V :=
  match d with
  | [] => []
  | (k', v') :: r =>
      if str_eqb k k' then dict_del k r else (k', v') :: dict_del k r
  end.

(** A dict display [{k1: v1, ..., kn: vn}], and more generally the
    mapping left by any sequence of insertions. *)
Definition dict_of_items {V : Type} (items : list (str * V)) : pydict V :=
  fold_left (fun d kv => dict_set (fst kv) (snd kv) d) items [].

(** [d.keys()], iterated. *)
Definition dict_keys {V : Type} (d : pydict V) : list str := map fst d.

(** The distinct elements of a list, each at its first occurrence. *)
Fixpoint first_occurrences (seen l : list str) : list str :=
  match l with
  | [] => []
  | k :: r =>
      if existsb (str_eqb k) seen then first_occurrences seen r
      else k :: first_occurrences (seen ++ [k]) r
  end.

(* ================================================================== *)
(** ** Computations over the mapping of a dataset *)

(** A computation that may read or write the mapping and may raise. *)
Definition M (A : Type) : Type := pydict str -> result A * pydict str.

Definition ret {A : Type} (a : A) : M A := fun h => (Return a, h).

Definition raise {A : Type} (e : exn) : M A := fun h => (Raise e, h).

Definition bind {A B : Type} (m : M A) (k : A -> M B) : M B :=
  fun h =>
    match m h with
    | (Return a, h') => k a h'
    | (Raise e, h') => (Raise e, h')
    end.

(** [key in self.data]. *)
Definition data_contains (key : str) : M bool :=
  fun h => (Return (dict_contains key h), h).

(** [self.data[key]]. *)
Definition data_getitem (key : str) : M str :=
  fun h =>
    match dict_get key h with
    | Some v => (Return v, h)
    | None => (Raise (KeyError key), h)
    end.

(** [self.data.keys()]. *)
Definition data_keys : M (list str) :=
  fun h => (Return (dict_keys h), h).

Declare Scope m_scope.
Delimit Scope m_scope with M.
Notation "x <- c ;; k" := (bind c (fun x => k))
  (at level 61, c at next level, right associativity) : m_scope.

Local Open Scope string_scope.
Local Open Scope list_scope.
Local Open Scope N_scope.

(* ================================================================== *)
(** ** The dataset *)

(** [@dataclass(frozen=True) class WeatherDataset]: the field [data]
    cannot be rebound; the mapping it refers to is an ordinary [dict]. *)
Record WeatherDataset : Type := { data : pydict str }.

(** Runs a method body on the mapping of [self]. *)
Definition run {A : Type} (m : M A) (self : WeatherDataset)
  : result A * WeatherDataset :=
  let (r, h) := m (data self) in (r, {| data := h |}).

Definition SIMULATED_DATASET : WeatherDataset :=
  {| data := dict_of_items
       [ (u "北京", u "北京：多云，22°C，东北风 3 级");
         (u "上海", u "上海：小雨，28°C，湿度 80%");
         (u "广州", u "广州：阵雨，30°C，西南风 2 级");
         (u "深圳", u "深圳：阴，29°C，湿度 70%");
         (u "成都", u "成都：小雨，24°C，西风 1 级") ] |}.

(* ================================================================== *)
(** ** The agent runtime, as [query_weather] sees it *)

Record FunctionTool : Type := {
  tool_type : str;
  function_name : str;
  function_description : str;
  parameters_type : str;
  (** property name, then its type and description *)
  parameters_properties : list (str * (str * str));
  parameters_required : list str
}.

Record AgentPayload : Type := {
  payload_model : str;
  payload_name : str;
  payload_instructions : str;
  payload_tools : list FunctionTool
}.

Record Message : Type := { role : str; content : str }.

(** A tool call issued by the runtime: [tool_call.id] and
    [tool_call.arguments]. *)
Record ToolCall (pyobj : Type) : Type := {
  tc_id : str;
  tc_arguments : pydict pyobj
}.

(** [{"tool_call_id": ..., "output": ...}]. *)
Record ToolOutput : Type := { tool_call_id : str; output : str }.

(** The operations invoked on a client handle.  Each field is the outcome
    of the whole Python expression named in its comment, attribute
    accesses included, so a handle lacking an attribute raises
    [AttributeError] from the corresponding field. *)
Record Client (pyobj Agent Stream Response : Type) : Type := {
  (** the truth value of the handle, tested by [client or OpenAI()] *)
  client_bool : result bool;
  (** [runtime_client.agents.create( **payload )] *)
  agents_create : AgentPayload -> result Agent;
  (** [agent.id] *)
  agent_id : Agent -> str;
  (** [runtime_client.agents.responses.stream(agent_id=..., input=...,
      tool_resolver=...)] followed by [__enter__] *)
  responses_stream :
    str -> list Message -> (ToolCall pyobj -> result ToolOutput) ->
    result Stream;
  (** [stream.until_done()] *)
  until_done : Stream -> result unit;
  (** [stream.get_final_response()] *)
  get_final_response : Stream -> result Response;
  (** [__exit__] of the stream, given the exception that left the block
      if any; [true] suppresses that exception *)
  stream_exit : Stream -> option exn -> result bool;
  (** [final_response.output_text] *)
  output_text : Response -> result str
}.

(** [def _agent_payload()]. *)
Definition _agent_payload : AgentPayload :=
  {| payload_model := u "gpt-4.1-mini";
     payload_name := u "Mock Weather Agent";
     payload_instructions :=
       u "你是一个天气查询 Agent。"
       ++ u " 当用户给出地点时，请调用 get_mock_weather 工具返回模拟天气。";
     payload_tools :=
       [ {| tool_type := u "function";
            function_name := u "get_mock_weather";
            function_description := u "根据地点返回模拟天气字符串";
            parameters_type := u "object";
            parameters_properties :=
              [ (u "location", (u "string", u "地点名称")) ];
            parameters_required := [ u "location" ] |} ] |}.

(** The stub bound to [OpenAI] when the SDK is not installed. *)
Definition OpenAI_stub (pyobj Agent Stream Response : Type)
  : result (Client pyobj Agent Stream Response) :=
  Raise (RuntimeError (u "OpenAI SDK 未安装，无法创建真实 Agent")).

(** The handle of the repository's test, [types.SimpleNamespace()]: a
    truthy object on which every attribute access fails. *)
Definition DummyClient (pyobj : Type) : Client pyobj unit unit unit :=
  {| client_bool := Return true;
     agents_create := fun _ => Raise AttributeError;
     agent_id := fun _ => u "";
     responses_stream := fun _ _ _ => Raise AttributeError;
     until_done := fun _ => Raise AttributeError;
     get_final_response := fun _ => Raise AttributeError;
     stream_exit := fun _ _ => Raise AttributeError;
     output_text := fun _ => Raise AttributeError |}.

(** A handle whose agent creation is interrupted from the keyboard. *)
Definition InterruptedClient (pyobj : Type) : Client pyobj unit unit unit :=
  {| client_bool := Return true;
     agents_create := fun _ => Raise (SystemExiting "KeyboardInterrupt");
     agent_id := fun _ => u "";
     responses_stream := fun _ _ _ => Raise AttributeError;
     until_done := fun _ => Raise AttributeError;
     get_final_response := fun _ => Raise AttributeError;
     stream_exit := fun _ _ => Raise AttributeError;
     output_text := fun _ => Raise AttributeError |}.

(** A runtime that issues the single tool call [tool_call], lets an
    exception of the resolver travel up through [until_done], and answers
    with the tool's output. *)
Definition RelayClient (pyobj : Type) (tool_call : ToolCall pyobj)
  : Client pyobj unit (result ToolOutput) str :=
  {| client_bool := Return true;
     agents_create := fun _ => Return tt;
     agent_id := fun _ => u "agent_1";
     responses_stream := fun _ _ resolver => Return (resolver tool_call);
     until_done := fun stream => rbind stream (fun _ => Return tt);
     get_final_response := fun stream => rbind stream (fun o => Return (output o));
     stream_exit := fun _ _ => Return false;
     output_text := fun response => Return response |}.

(** A handle that tests false, as an empty container does. *)
Definition FalsyClient (pyobj : Type) : Client pyobj unit unit unit :=
  {| client_bool := Return false;
     agents_create := fun _ => Return tt;
     agent_id := fun _ => u "agent_1";
     responses_stream := fun _ _ _ => Return tt;
     until_done := fun _ => Return tt;
     get_final_response := fun _ => Return tt;
     stream_exit := fun _ _ => Return false;
     output_text := fun _ => Return (u "unused") |}.

(** A runtime interrupted while the stream is driven, whose [__exit__]
    swallows whatever leaves the block. *)
Definition SwallowingClient (pyobj : Type) : Client pyobj unit unit str :=
  {| client_bool := Return true;
     agents_create := fun _ => Return tt;
     agent_id := fun _ => u "agent_1";
     responses_stream := fun _ _ _ => Return tt;
     until_done := fun _ => Raise (SystemExiting "KeyboardInterrupt");
     get_final_response := fun _ => Return (u "unreached");
     stream_exit := fun _ _ => Return true;
     output_text := fun response => Return response |}.


Section WeatherAgent.

(** A proof depends on the variables of its statement, and on the
    hypotheses its [Proof using] line names. *)
Set Default Proof Using "Type".

(** [str.lower], as the interpreter provides it. *)
Variable lower : str -> str.

(** [def lookup(self, location)], on the mapping of [self]. *)
Definition lookup_m (location : str) : M str :=
  let key := lower (strip location) in
  match key with
  | [] => raise (ValueError (u "location 不能为空"))
  | _ :: _ =>
      (present <- data_contains key ;;
       if present : bool then data_getitem key
       else ret (location ++ u "：晴，25°C，微风"))%M
  end.

Definition lookup (self : WeatherDataset) (location : str) : result str :=
  fst (run (lookup_m location) self).

(** [def iter_available_locations(dataset)]: the keys view, iterated. *)
Definition iter_available_locations_m : M (list str) := data_keys.

Definition iter_available_locations (dataset : WeatherDataset)
  : result (list str) :=
  fst (run iter_available_locations_m dataset).

(** Which of the three exits of [lookup] a call takes. *)
Inductive branch : Type :=
| Rejected
| TableMatch (key text : str)
| Fallback.

Definition lookup_branch (self : WeatherDataset) (location : str) : branch :=
  let key := lower (strip location) in
  match key with
  | [] => Rejected
  | _ :: _ =>
      match dict_get key (data self) with
      | Some text => TableMatch key text
      | None => Fallback
      end
  end.

(** What each exit hands back. *)
Definition branch_result (location : str) (b : branch) : result str :=
  match b with
  | Rejected => Raise (ValueError (u "location 不能为空"))
  | TableMatch _ text => Return text
  | Fallback => Return (location ++ u "：晴，25°C，微风")
  end.

(** Values found in tool-call arguments, and [str(x)] on them. *)
Variable pyobj : Type.
Variable py_str : pyobj -> str.

(** [def _resolve_weather_tool(arguments)]; the default of [get] is the
    empty [str], whose [str()] is itself. *)
Definition _resolve_weather_tool (arguments : pydict pyobj) : result str :=
  let location :=
    match dict_get (u "location") arguments with
    | Some v => py_str v
    | None => u ""
    end in
  lookup SIMULATED_DATASET location.

Variables Agent Stream Response : Type.

Let client : Type := Client pyobj Agent Stream Response.

(** The outcome of calling [OpenAI()] in this run: [OpenAI_stub] without
    the SDK, whatever the SDK's constructor does with it. *)
Variable OpenAI : result client.

(** The [lambda tool_call: ...] handed to the runtime. *)
Definition tool_resolver (tool_call : ToolCall pyobj) : result ToolOutput :=
  (text <- _resolve_weather_tool (tc_arguments tool_call) ;;
   Return {| tool_call_id := tc_id tool_call; output := text |})%result.

(** The [with ... as stream:] statement, for a given resolver.  It ends
    with [final_response] bound, or unbound when [__exit__] suppressed
    an exception of the block. *)
Definition stream_turn (runtime_client : client) (agent : Agent)
    (location : str) (resolver : ToolCall pyobj -> result ToolOutput)
  : result (option Response) :=
  (stream <- responses_stream runtime_client
               (agent_id runtime_client agent)
               [ {| role := u "user"; content := location |} ]
               resolver ;;
   match (_ <- until_done runtime_client stream ;;
          get_final_response runtime_client stream) with
   | Return final_response =>
       _ <- stream_exit runtime_client stream None ;;
       Return (Some final_response)
   | Raise e =>
       suppress <- stream_exit runtime_client stream (Some e) ;;
       if suppress : bool then Return None else Raise e
   end)%result.

(** The body of the [try] in [query_weather]. *)
Definition remote_path (location : str) (handle : option client)
  : result str :=
  (runtime_client <-
     match handle with
     | None => OpenAI
     | Some c =>
         truthy <- client_bool c ;;
         if truthy : bool then Return c else OpenAI
     end ;;
   agent <- agents_create runtime_client _agent_payload ;;
   final <- stream_turn runtime_client agent location tool_resolver ;;
   match final with
   | Some final_response =>
       text <- output_text runtime_client final_response ;;
       Return (strip text)
   | None => Raise UnboundLocalError
   end)%result.

(** [def query_weather(location, *, client=None)]. *)
Definition query_weather (location : str) (handle : option client)
  : result str :=
  try_except_Exception
    (remote_path location handle)
    (lookup SIMULATED_DATASET location).



(* ================================================================ *)
(** ** Strings *)

Lemma str_eqb_eq (a b : str) : str_eqb a b = true <-> a = b.
Proof.
  revert b; induction a as [|x a IH]; intros [|y b]; simpl;
    try (split; [discriminate | discriminate]); try tauto.
  rewrite andb_true_iff, N.eqb_eq, IH.
  split; [intros [-> ->]; reflexivity | intros E; inversion E; auto].
Qed.

Lemma str_eqb_refl (a : str) : str_eqb a a = true.
Proof. apply str_eqb_eq; reflexivity. Qed.

Lemma str_eqb_neq (a b : str) : str_eqb a b = false <-> a <> b.
Proof.
  rewrite <- str_eqb_eq. destruct (str_eqb a b); split; congruence.
Qed.

Lemma str_eqb_sym (a b : str) : str_eqb a b = str_eqb b a.
Proof.
  destruct (str_eqb b a) eqn:E.
  - apply str_eqb_eq in E; subst; apply str_eqb_refl.
  - apply str_eqb_neq. apply str_eqb_neq in E. congruence.
Qed.

Lemma startswith_app (s t : str) : startswith (s ++ t) s = true.
Proof.
  induction s as [|x s IH]; simpl; [reflexivity|].
  now rewrite N.eqb_refl, IH.
Qed.

Lemma startswith_prefix (t s : str) :
  startswith t s = true <-> exists rest, t = s ++ rest.
Proof.
  revert t; induction s as [|x s IH]; intros t; simpl.
  - split; [exists t; reflexivity | reflexivity].
  - destruct t as [|y t].
    + split; [discriminate | intros [rest E]; discriminate].
    + rewrite andb_true_iff, N.eqb_eq, IH. split.
      * intros [-> [rest ->]]. exists rest; reflexivity.
      * intros [rest E]. inversion E; subst. eauto.
Qed.

Lemma lstrip_starts_clean (s : str) : starts_clean (lstrip s).
Proof.
  induction s as [|c r IH]; simpl; [exact I|].
  destruct (isspace c) eqn:E; [exact IH | exact E].
Qed.

Lemma lstrip_fixed (s : str) : lstrip s = s <-> starts_clean s.
Proof.
  split.
  - intros E; rewrite <- E; apply lstrip_starts_clean.
  - destruct s as [|c r]; simpl; [reflexivity|]. intros ->; reflexivity.
Qed.

Lemma lstrip_idem (s : str) : lstrip (lstrip s) = lstrip s.
Proof. apply lstrip_fixed, lstrip_starts_clean. Qed.

Lemma lstrip_snoc_clean (s : str) (c : N) :
  isspace c = false -> lstrip (s ++ [c]) = lstrip s ++ [c].
Proof.
  intros Hc; induction s as [|x s IH]; simpl.
  - now rewrite Hc.
  - destruct (isspace x); [exact IH | reflexivity].
Qed.

Lemma rstrip_cons_clean (c : N) (r : str) :
  isspace c = false -> rstrip (c :: r) = c :: rstrip r.
Proof.
  intros Hc; unfold rstrip; simpl.
  now rewrite lstrip_snoc_clean, rev_app_distr.
Qed.

Lemma rstrip_starts_clean (s : str) : starts_clean s -> starts_clean (rstrip s).
Proof.
  destruct s as [|c r]; simpl; [intros _; exact I|].
  intros Hc; now rewrite rstrip_cons_clean.
Qed.

Lemma rstrip_idem (s : str) : rstrip (rstrip s) = rstrip s.
Proof. unfold rstrip; now rewrite rev_involutive, lstrip_idem. Qed.

Lemma strip_starts_clean (s : str) : starts_clean (strip s).
Proof. apply rstrip_starts_clean, lstrip_starts_clean. Qed.

Lemma strip_idem (s : str) : strip (strip s) = strip s.
Proof.
  unfold strip at 1.
  assert (E : lstrip (strip s) = strip s)
    by apply lstrip_fixed, strip_starts_clean.
  rewrite E; unfold strip; apply rstrip_idem.
Qed.

Lemma strip_nil : strip [] = [].
Proof. reflexivity. Qed.

(** A code-point map that respects whitespace commutes with [strip]. *)
Lemma lstrip_map (f : N -> N) (s : str) :
  (forall c, isspace (f c) = isspace c) ->
  lstrip (map f s) = map f (lstrip s).
Proof.
  intros Hf; induction s as [|c r IH]; simpl; [reflexivity|].
  rewrite Hf; destruct (isspace c); [exact IH | reflexivity].
Qed.

Lemma strip_map (f : N -> N) (s : str) :
  (forall c, isspace (f c) = isspace c) ->
  strip (map f s) = map f (strip s).
Proof.
  intros Hf; unfold strip, rstrip.
  now rewrite lstrip_map, <- map_rev, lstrip_map, map_rev.
Qed.

(** [ascii_lower] has the properties of [str.lower] used below. *)
Lemma isspace_ascii_letter (c : N) : 0x41 <= c <= 0x7A -> isspace c = false.
Proof.
  intros H; unfold isspace.
  repeat apply orb_false_intro;
    first [ apply N.eqb_neq; lia
          | apply andb_false_iff;
            first [ left; apply N.leb_gt; lia | right; apply N.leb_gt; lia ] ].
Qed.

Lemma ascii_lower_cp_isspace (c : N) : isspace (ascii_lower_cp c) = isspace c.
Proof.
  unfold ascii_lower_cp.
  destruct ((0x41 <=? c) && (c <=? 0x5A)) eqn:E; [|reflexivity].
  apply andb_true_iff in E; destruct E as [E1 E2].
  apply N.leb_le in E1, E2.
  rewrite !isspace_ascii_letter by lia. reflexivity.
Qed.

Lemma ascii_lower_cp_idem (c : N) :
  ascii_lower_cp (ascii_lower_cp c) = ascii_lower_cp c.
Proof.
  unfold ascii_lower_cp.
  destruct ((0x41 <=? c) && (c <=? 0x5A)) eqn:E; [|now rewrite E].
  apply andb_true_iff in E; destruct E as [E1 E2].
  apply N.leb_le in E1, E2.
  assert (F : (c + 0x20 <=? 0x5A) = false) by (apply N.leb_gt; lia).
  now rewrite F, andb_false_r.
Qed.

Lemma ascii_lower_nil : ascii_lower [] = [].
Proof. reflexivity. Qed.

Lemma ascii_lower_nonempty (s : str) : s <> [] -> ascii_lower s <> [].
Proof. destruct s; [congruence | discriminate]. Qed.

Lemma ascii_lower_idem (s : str) : ascii_lower (ascii_lower s) = ascii_lower s.
Proof.
  unfold ascii_lower; rewrite map_map.
  apply map_ext; intros c; apply ascii_lower_cp_idem.
Qed.

Lemma ascii_lower_stripped (s : str) :
  strip s = s -> strip (ascii_lower s) = ascii_lower s.
Proof.
  intros E; unfold ascii_lower.
  rewrite strip_map by apply ascii_lower_cp_isspace. now rewrite E.
Qed.

(* ================================================================ *)
(** ** Dictionaries *)

Lemma existsb_str_eqb (k : str) (l : list str) :
  existsb (str_eqb k) l = true <-> In k l.
Proof.
  rewrite existsb_exists; split.
  - intros [x [Hx E]]. apply str_eqb_eq in E; now subst.
  - intros H; exists k; split; [exact H | apply str_eqb_refl].
Qed.

Lemma dict_contains_keys {V : Type} (k : str) (d : pydict V) :
  dict_contains k d = true <-> In k (dict_keys d).
Proof.
  unfold dict_contains; induction d as [|[k' v] r IH]; simpl.
  - split; [discriminate | intros []].
  - destruct (str_eqb k k') eqn:E.
    + apply str_eqb_eq in E; subst.
      split; [intros _; left; reflexivity | reflexivity].
    + apply str_eqb_neq in E. rewrite IH; split; [intros H; right; exact H|].
      intros [F|F]; [symmetry in F; contradiction | exact F].
Qed.

Lemma dict_get_keys {V : Type} (k : str) (d : pydict V) :
  In k (dict_keys d) <-> exists v, dict_get k d = Some v.
Proof.
  rewrite <- dict_contains_keys; unfold dict_contains.
  destruct (dict_get k d) as [v|].
  - split; [eauto | reflexivity].
  - split; [discriminate | intros [v E]; discriminate].
Qed.

Lemma dict_keys_set {V : Type} (k : str) (v : V) (d : pydict V) :
  dict_keys (dict_set k v d) =
  if dict_contains k d then dict_keys d else dict_keys d ++ [k].
Proof.
  unfold dict_contains; induction d as [|[k' v'] r IH]; simpl; [reflexivity|].
  destruct (str_eqb k k') eqn:E; simpl; [reflexivity|].
  rewrite IH. now destruct (dict_get k r).
Qed.

Lemma dict_keys_insertions {V : Type} (items : list (str * V)) (d : pydict V) :
  dict_keys (fold_left (fun d kv => dict_set (fst kv) (snd kv) d) items d) =
  dict_keys d ++ first_occurrences (dict_keys d) (map fst items).
Proof.
  revert d; induction items as [|[k v] r IH]; intros d; simpl.
  - now rewrite app_nil_r.
  - rewrite IH, dict_keys_set.
    destruct (dict_contains k d) eqn:E.
    + apply dict_contains_keys, existsb_str_eqb in E. now rewrite E.
    + assert (F : existsb (str_eqb k) (dict_keys d) = false).
      { destruct (existsb (str_eqb k) (dict_keys d)) eqn:G; [|reflexivity].
        apply existsb_str_eqb, dict_contains_keys in G. congruence. }
      now rewrite F, <- app_assoc.
Qed.

Lemma dict_keys_of_items {V : Type} (items : list (str * V)) :
  dict_keys (dict_of_items items) = first_occurrences [] (map fst items).
Proof. unfold dict_of_items; now rewrite dict_keys_insertions. Qed.

Lemma first_occurrences_NoDup (l seen : list str) :
  NoDup seen -> NoDup (seen ++ first_occurrences seen l).
Proof.
  revert seen; induction l as [|k r IH]; intros seen Hs; simpl.
  - now rewrite app_nil_r.
  - destruct (existsb (str_eqb k) seen) eqn:E; [now apply IH|].
    change (k :: first_occurrences (seen ++ [k]) r)
      with ([k] ++ first_occurrences (seen ++ [k]) r).
    rewrite app_assoc. apply IH.
    apply NoDup_app; [exact Hs | repeat constructor; intros [] |].
    intros x Hx [<-|[]].
    apply existsb_str_eqb in Hx. congruence.
Qed.

Lemma first_occurrences_In (l seen : list str) (k : str) :
  In k (seen ++ first_occurrences seen l) <-> In k seen \/ In k l.
Proof.
  revert seen; induction l as [|x r IH]; intros seen; simpl.
  - rewrite app_nil_r. split; [intros H; left; exact H | intros [H|[]]; exact H].
  - destruct (existsb (str_eqb x) seen) eqn:E.
    + rewrite IH. apply existsb_str_eqb in E. split.
      * intros [H|H]; [left | right; right]; exact H.
      * intros [H|[<-|H]]; [left; exact H | left; exact E | right; exact H].
    + change (x :: first_occurrences (seen ++ [x]) r)
        with ([x] ++ first_occurrences (seen ++ [x]) r).
      rewrite app_assoc, IH, in_app_iff; simpl. split.
      * intros [[H|[H|[]]]|H];
          [left; exact H | right; left; exact H | right; right; exact H].
      * intros [H|[H|H]];
          [left; left; exact H | left; right; left; exact H | right; exact H].
Qed.

Lemma dict_get_del {V : Type} (k k' : str) (d : pydict V) :
  k <> k' -> dict_get k (dict_del k' d) = dict_get k d.
Proof.
  intros N; induction d as [|[x v] r IH]; simpl; [reflexivity|].
  destruct (str_eqb k' x) eqn:E.
  - apply str_eqb_eq in E; subst x.
    apply str_eqb_neq in N. now rewrite N.
  - simpl. now rewrite IH.
Qed.


(* ================================================================== *)
(** ** [lookup], exit by exit *)

Lemma lookup_m_spec (location : str) (h : pydict str) :
  lookup_m location h =
  (branch_result location (lookup_branch {| data := h |} location), h).
Proof.
  unfold lookup_m, lookup_branch; simpl.
  destruct (lower (strip location)) as [|c key]; [reflexivity|].
  unfold bind, data_contains, dict_contains.
  destruct (dict_get (c :: key) h) as [text|] eqn:G; simpl.
  - unfold data_getitem. now rewrite G.
  - reflexivity.
Qed.

Lemma run_lookup_m (self : WeatherDataset) (location : str) :
  run (lookup_m location) self = (lookup self location, self).
Proof.
  unfold lookup, run. rewrite lookup_m_spec. destruct self; reflexivity.
Qed.

Lemma lookup_by_branch (self : WeatherDataset) (location : str) :
  lookup self location = branch_result location (lookup_branch self location).
Proof.
  unfold lookup, run. rewrite lookup_m_spec. destruct self; reflexivity.
Qed.

Lemma lookup_branch_key (self : WeatherDataset) (location key text : str) :
  lookup_branch self location = TableMatch key text ->
  key = lower (strip location) /\ key <> [] /\
  dict_get key (data self) = Some text.
Proof.
  unfold lookup_branch.
  destruct (lower (strip location)) as [|c n]; [discriminate|].
  destruct (dict_get (c :: n) (data self)) as [v|] eqn:G; [|discriminate].
  intros E; inversion E; subst. repeat split; [discriminate | exact G].
Qed.

Lemma lookup_rejected (self : WeatherDataset) (location : str) :
  lower (strip location) = [] ->
  lookup self location = Raise (ValueError (u "location 不能为空")).
Proof.
  intros E. rewrite lookup_by_branch. unfold lookup_branch. now rewrite E.
Qed.

Lemma lookup_matched (self : WeatherDataset) (location text : str) :
  lower (strip location) <> [] ->
  dict_get (lower (strip location)) (data self) = Some text ->
  lookup self location = Return text.
Proof.
  intros N G. rewrite lookup_by_branch. unfold lookup_branch.
  destruct (lower (strip location)) as [|c n]; [congruence|].
  now rewrite G.
Qed.

Lemma lookup_unmatched (self : WeatherDataset) (location : str) :
  lower (strip location) <> [] ->
  dict_contains (lower (strip location)) (data self) = false ->
  lookup self location = Return (location ++ u "：晴，25°C，微风").
Proof.
  intros N G. rewrite lookup_by_branch. unfold lookup_branch.
  destruct (lower (strip location)) as [|c n]; [congruence|].
  unfold dict_contains in G.
  destruct (dict_get (c :: n) (data self)); [discriminate | reflexivity].
Qed.

(** [lookup] either returns or raises its own [ValueError]. *)
Lemma lookup_outcome (self : WeatherDataset) (location : str) :
  (lower (strip location) = [] /\
   lookup self location = Raise (ValueError (u "location 不能为空")))
  \/ (lower (strip location) <> [] /\
      exists text, lookup self location = Return text).
Proof.
  destruct (lower (strip location)) as [|c n] eqn:E.
  - left; split; [reflexivity | now apply lookup_rejected].
  - right; split; [discriminate|].
    rewrite lookup_by_branch; unfold lookup_branch; rewrite E.
    destruct (dict_get (c :: n) (data self)); simpl; eauto.
Qed.

(* ================================================================== *)
(** ** The [try] statement of [query_weather] *)

Lemma try_except_caught {A : Type} (body handler : result A) (e : exn) :
  body = Raise e -> is_Exception e = true ->
  try_except_Exception body handler = handler.
Proof. intros -> H; simpl; now rewrite H. Qed.

Lemma try_except_returned {A : Type} (body handler : result A) (a : A) :
  body = Return a -> try_except_Exception body handler = Return a.
Proof. now intros ->. Qed.

Lemma try_except_passed {A : Type} (body handler : result A) (e : exn) :
  body = Raise e -> is_Exception e = false ->
  try_except_Exception body handler = Raise e.
Proof. intros -> H; simpl; now rewrite H. Qed.

(** Whatever escapes the [try] statement as an [Exception] was raised by
    the handler, after the body had raised an [Exception] itself. *)
Lemma try_except_escape {A : Type} (body handler : result A) (e : exn) :
  try_except_Exception body handler = Raise e -> is_Exception e = true ->
  handler = Raise e /\ exists e', body = Raise e' /\ is_Exception e' = true.
Proof.
  destruct body as [a|e']; simpl; [discriminate|].
  destruct (is_Exception e') eqn:E.
  - intros -> _; eauto.
  - intros F; inversion F; subst; congruence.
Qed.

(** Each step of the remote path hands its exception to the [try]. *)
Lemma remote_path_no_runtime (location : str) (e : exn) :
  OpenAI = Raise e -> remote_path location None = Raise e.
Proof. unfold remote_path; now intros ->. Qed.

Lemma remote_path_create_raises (location : str) (c : client) (e : exn) :
  client_bool c = Return true ->
  agents_create c _agent_payload = Raise e ->
  remote_path location (Some c) = Raise e.
Proof. unfold remote_path; intros -> E; simpl; now rewrite E. Qed.


(* ================================================================== *)
(** ** What is assumed of [str.lower]

    Facts of the interpreter's [str.lower] on which some results below
    rest; each result takes only those it uses.  [ascii_lower] has all
    four. *)

(** The empty string has no letter to change. *)
Hypothesis lower_nil : lower [] = [].

(** Every code point is mapped to at least one code point. *)
Hypothesis lower_nonempty : forall s : str, s <> [] -> lower s <> [].

(** A lower-cased string has nothing left to lower-case. *)
Hypothesis lower_idem : forall s : str, lower (lower s) = lower s.

(** Whitespace is uncased and no letter lowers to whitespace: a string
    with no surrounding whitespace keeps that property. *)
Hypothesis lower_stripped :
  forall s : str, strip s = s -> strip (lower s) = lower s.

Lemma lower_strip_nil (location : str) :
  strip location = [] -> lower (strip location) = [].
Proof using lower_nil. intros ->. exact lower_nil. Qed.

Lemma lower_strip_nil_inv (location : str) :
  lower (strip location) = [] -> strip location = [].
Proof using lower_nonempty.
  intros E. destruct (strip location) as [|c r] eqn:S; [reflexivity|].
  exfalso. apply (@lower_nonempty (c :: r)); [discriminate | exact E].
Qed.

(** [strip().lower()] is idempotent. *)
Lemma normalized_fixed (location : str) :
  lower (strip (lower (strip location))) = lower (strip location).
Proof using lower_idem lower_stripped.
  rewrite (lower_stripped (strip_idem location)). apply lower_idem.
Qed.

(* ================================================================== *)
(** ** The dataset: results *)

(** C1 (amended).  For every location whose trimmed, lower-cased form is
    non-empty and is no key of the table, [lookup] returns the location
    exactly as it was given -- surrounding whitespace kept, case
    unchanged -- followed by the fixed text "：晴，25°C，微风" (a
    full-width colon, then the descriptor).  That is the trimmed location
    followed by the same text exactly when the location carries no
    surrounding whitespace. *)
Theorem lookup_fallback_text (self : WeatherDataset) (location : str) :
  lower (strip location) <> [] ->
  dict_contains (lower (strip location)) (data self) = false ->
  lookup self location = Return (location ++ u "：晴，25°C，微风")
  /\ (lookup self location = Return (strip location ++ u "：晴，25°C，微风")
      <-> strip location = location).
Proof.
  intros N G. pose proof (lookup_unmatched self location N G) as E.
  split; [exact E|]. rewrite E. split.
  - intros F. inversion F as [F']. now apply app_inv_tail in F'.
  - now intros ->.
Qed.

(** C3.  For every dataset and every location, [lookup] raises exactly
    when the location is empty after trimming, and what it raises then is
    its [ValueError]; on every location that is not empty after trimming
    it returns a string, whether or not the location is in the table. *)
Theorem lookup_raises_iff_blank (self : WeatherDataset) (location : str) :
  ((exists e, lookup self location = Raise e) <-> strip location = [])
  /\ (strip location = [] ->
      lookup self location = Raise (ValueError (u "location 不能为空")))
  /\ (strip location <> [] ->
      exists text, lookup self location = Return text).
Proof using lower_nil lower_nonempty.
  destruct (lookup_outcome self location) as [[K E]|[K [text E]]].
  - apply lower_strip_nil_inv in K. repeat split.
    + intros _; exact K.
    + intros _; eauto.
    + intros _; exact E.
    + intros N; contradiction.
  - assert (N : strip location <> [])
      by (intros S; apply K; now apply lower_strip_nil).
    repeat split.
    + intros [e F]. rewrite E in F; discriminate.
    + intros S; contradiction.
    + intros S; contradiction.
    + intros _; eauto.
Qed.

(** C5 (amended).  For every location whose trimmed, lower-cased form is
    non-empty and is a key of the table, [lookup] returns the text stored
    under that key, unchanged. *)
Theorem lookup_known_key (self : WeatherDataset) (location : str) :
  lower (strip location) <> [] ->
  dict_contains (lower (strip location)) (data self) = true ->
  exists text,
    dict_get (lower (strip location)) (data self) = Some text
    /\ lookup self location = Return text.
Proof.
  intros N G. apply dict_contains_keys, dict_get_keys in G.
  destruct G as [text G]. exists text. split; [exact G|].
  now apply lookup_matched.
Qed.

(** C6 (amended).  For every location that is not empty after trimming
    and whose normalized form is no key of the table, [lookup] returns the location
    followed by the fixed fallback text, a string that starts with the
    location; this covers every such location when the table is empty,
    and [WeatherDataset({}).lookup("X")] is that fallback. *)
Theorem lookup_unknown_location :
  (forall (self : WeatherDataset) (location : str),
      strip location <> [] ->
      dict_contains (lower (strip location)) (data self) = false ->
      exists text,
        lookup self location = Return text
        /\ text = location ++ u "：晴，25°C，微风"
        /\ startswith text location = true)
  /\ (forall location : str,
         strip location <> [] ->
         lookup {| data := dict_of_items [] |} location
         = Return (location ++ u "：晴，25°C，微风"))
  /\ lookup {| data := dict_of_items [] |} (u "X")
     = Return (u "X：晴，25°C，微风").
Proof using lower_nonempty.
  assert (A : forall self location,
             strip location <> [] ->
             dict_contains (lower (strip location)) (data self) = false ->
             lookup self location = Return (location ++ u "：晴，25°C，微风")).
  { intros self location N G. apply lookup_unmatched; [|exact G].
    intros E; apply N; now apply lower_strip_nil_inv. }
  split; [|split].
  - intros self location N G. eexists. split; [now apply A|].
    split; [reflexivity | apply startswith_app].
  - intros location N. now apply A.
  - rewrite A; [reflexivity | vm_compute; discriminate | reflexivity].
Qed.

(** C7.  For the dataset built from any sequence of insertions,
    [iter_available_locations] yields the distinct inserted keys, each at
    the place of its first insertion, and leaves the dataset as it was; a
    second call on the dataset it left yields the same sequence.  The
    sequence is finite and without repetition, and its elements are
    exactly the keys of the table. *)
Theorem iter_available_locations_keys (items : list (str * str)) :
  let dataset := {| data := dict_of_items items |} in
  let keys := first_occurrences [] (map fst items) in
  run iter_available_locations_m dataset = (Return keys, dataset)
  /\ run iter_available_locations_m
       (snd (run iter_available_locations_m dataset))
     = (Return keys, dataset)
  /\ iter_available_locations dataset = Return keys
  /\ NoDup keys
  /\ (forall k, In k keys <-> dict_contains k (data dataset) = true)
  /\ (forall k, In k keys <-> In k (map fst items)).
Proof.
  intros dataset keys.
  assert (R : run iter_available_locations_m dataset = (Return keys, dataset)).
  { unfold run, iter_available_locations_m, data_keys, dataset, keys; simpl.
    now rewrite dict_keys_of_items. }
  split; [exact R|]. split; [now rewrite R|].
  split; [unfold iter_available_locations; now rewrite R|].
  split; [|split].
  - apply (first_occurrences_NoDup (map fst items) (seen := [])). constructor.
  - intros k. unfold keys. rewrite <- dict_keys_of_items.
    symmetry; apply dict_contains_keys.
  - intros k. pose proof (first_occurrences_In (map fst items) [] k) as H.
    simpl in H. unfold keys. rewrite H.
    split; [intros [[]|A]; exact A | intros A; right; exact A].
Qed.

(** C8.  [lookup] reads the mapping and nothing else: a call leaves the
    dataset as it found it, and a second call with the same location, on
    the dataset the first one left, has the same outcome -- the same
    string returned or the same exception raised. *)
Theorem lookup_is_pure (self : WeatherDataset) (location : str) :
  let '(r1, self1) := run (lookup_m location) self in
  let '(r2, self2) := run (lookup_m location) self1 in
  r1 = r2 /\ self1 = self /\ self2 = self /\ r1 = lookup self location.
Proof.
  rewrite run_lookup_m, run_lookup_m. repeat split.
Qed.

(** C9.  The key [lookup] tests against the table is always
    [location.strip().lower()], compared by equality.  So a key that is
    not its own normalized form -- lower-casing changes it, or it has
    surrounding whitespace -- is never the one matched, whatever the
    location, and deleting its entry changes no [lookup]. *)
Theorem unnormalized_key_never_matches
    (self : WeatherDataset) (location k : str) :
  lower k <> k \/ strip k <> k ->
  (forall key text,
      lookup_branch self location = TableMatch key text ->
      key = lower (strip location) /\ key <> k)
  /\ lookup {| data := dict_del k (data self) |} location
     = lookup self location.
Proof using lower_idem lower_stripped.
  intros Hk.
  assert (N : lower (strip location) <> k).
  { intros E. pose proof (normalized_fixed location) as F. rewrite E in F.
    pose proof (lower_stripped (strip_idem location)) as S. rewrite E in S.
    destruct Hk as [Hk|Hk]; [|now apply Hk].
    apply Hk. now rewrite S in F. }
  split.
  - intros key text B. apply lookup_branch_key in B.
    destruct B as (-> & _ & _). split; [reflexivity | exact N].
  - rewrite !lookup_by_branch. unfold lookup_branch; simpl.
    now rewrite (dict_get_del (data self) N).
Qed.

(* ================================================================== *)
(** ** The resolver: results *)

(** C2 (amended).  For every location and every handle on which the
    remote path -- obtaining the runtime, creating the agent, streaming
    the turn, resolving tool calls, reading the answer -- raises an
    exception derived from [Exception], [query_weather] abandons the
    remote path and behaves exactly as [lookup(location)] on
    [SIMULATED_DATASET]: the exception of the remote path does not reach
    the caller. *)
Theorem query_weather_falls_back
    (location : str) (handle : option client) (e : exn) :
  remote_path location handle = Raise e ->
  is_Exception e = true ->
  query_weather location handle = lookup SIMULATED_DATASET location.
Proof.
  intros E H. unfold query_weather. exact (try_except_caught _ E H).
Qed.

(** C4 (amended).  For every location that is empty after trimming,
    [lookup] raises its [ValueError], and [query_weather], whenever its
    remote path fails with an exception derived from [Exception], raises
    the identical [ValueError] from the direct lookup.  That
    [ValueError], for a location empty after trimming, is the only
    exception derived from [Exception] that leaves [query_weather]. *)
Theorem blank_location_error :
  (forall (self : WeatherDataset) (location : str),
      strip location = [] ->
      lookup self location = Raise (ValueError (u "location 不能为空")))
  /\ (forall (location : str) (handle : option client) (e : exn),
         strip location = [] ->
         remote_path location handle = Raise e ->
         is_Exception e = true ->
         query_weather location handle
         = Raise (ValueError (u "location 不能为空")))
  /\ (forall (location : str) (handle : option client) (e : exn),
         query_weather location handle = Raise e ->
         is_Exception e = true ->
         e = ValueError (u "location 不能为空") /\ strip location = []).
Proof using lower_nil lower_nonempty.
  assert (A : forall self location,
             strip location = [] ->
             lookup self location = Raise (ValueError (u "location 不能为空"))).
  { intros self location E. apply lookup_rejected.
    now apply lower_strip_nil. }
  split; [exact A|]. split.
  - intros location handle e S E H. unfold query_weather.
    rewrite (try_except_caught _ E H). now apply A.
  - intros location handle e E H. unfold query_weather in E.
    apply try_except_escape in E; [|exact H]. destruct E as [E _].
    destruct (lookup_outcome SIMULATED_DATASET location)
      as [[K F]|[K [text F]]]; [|congruence].
    split; [congruence | now apply lower_strip_nil_inv].
Qed.


(** An exception of the remote path that is not derived from [Exception]
    is not caught: it leaves [query_weather] as it is. *)
Lemma query_weather_passes_system_exit
    (location : str) (handle : option client) (e : exn) :
  remote_path location handle = Raise e ->
  is_Exception e = false ->
  query_weather location handle = Raise e.
Proof.
  intros E H. unfold query_weather. exact (try_except_passed _ E H).
Qed.

(** A remote path that completes gives the trimmed answer. *)
Lemma query_weather_remote_answer
    (location : str) (handle : option client) (text : str) :
  remote_path location handle = Return text ->
  query_weather location handle = Return text.
Proof.
  intros E. unfold query_weather. exact (try_except_returned _ E).
Qed.

(* ================================================================== *)
(** ** Further properties of the code *)

(** *** Whitespace *)

Lemma lstrip_nil_iff (s : str) : lstrip s = [] <-> forallb isspace s = true.
Proof.
  induction s as [|c r IH]; simpl.
  - split; reflexivity.
  - destruct (isspace c); simpl; [exact IH | split; discriminate].
Qed.

Lemma forallb_isspace_rev (s : str) :
  forallb isspace (rev s) = forallb isspace s.
Proof.
  induction s as [|c r IH]; simpl; [reflexivity|].
  rewrite forallb_app, IH; simpl. rewrite andb_true_r. apply andb_comm.
Qed.

Lemma rstrip_nil_iff (s : str) : rstrip s = [] <-> forallb isspace s = true.
Proof.
  unfold rstrip. rewrite <- forallb_isspace_rev, <- lstrip_nil_iff.
  split; [|now intros ->].
  intros E. apply (f_equal (@rev N)) in E. now rewrite rev_involutive in E.
Qed.

Lemma strip_nil_iff (s : str) : strip s = [] <-> forallb isspace s = true.
Proof.
  unfold strip. rewrite rstrip_nil_iff, <- lstrip_nil_iff, lstrip_idem.
  apply lstrip_nil_iff.
Qed.

Lemma lstrip_app (s t : str) :
  lstrip (s ++ t) =
  match lstrip s with
  | [] => lstrip t
  | _ :: _ => lstrip s ++ t
  end.
Proof.
  induction s as [|c r IH]; simpl; [reflexivity|].
  destruct (isspace c); [exact IH | reflexivity].
Qed.

Lemma rstrip_app_space (s post : str) :
  forallb isspace post = true -> rstrip (s ++ post) = rstrip s.
Proof.
  intros H. unfold rstrip. rewrite rev_app_distr, lstrip_app.
  rewrite <- forallb_isspace_rev in H. apply lstrip_nil_iff in H.
  now rewrite H.
Qed.

Lemma strip_padded (pre s post : str) :
  forallb isspace pre = true ->
  forallb isspace post = true ->
  strip (pre ++ s ++ post) = strip s.
Proof.
  intros Hpre Hpost. unfold strip.
  rewrite lstrip_app. apply lstrip_nil_iff in Hpre. rewrite Hpre.
  rewrite lstrip_app. destruct (lstrip s) as [|c r] eqn:E.
  - apply lstrip_nil_iff in Hpost. now rewrite Hpost.
  - now apply rstrip_app_space.
Qed.

(** *** Insertions *)

Lemma dict_get_set_same {V : Type} (k : str) (v : V) (d : pydict V) :
  dict_get k (dict_set k v d) = Some v.
Proof.
  induction d as [|[k' v'] r IH]; simpl.
  - now rewrite str_eqb_refl.
  - destruct (str_eqb k k') eqn:E; simpl; now rewrite E.
Qed.

Lemma dict_get_set_other {V : Type} (k k' : str) (v : V) (d : pydict V) :
  k' <> k -> dict_get k' (dict_set k v d) = dict_get k' d.
Proof.
  intros N. apply str_eqb_neq in N.
  induction d as [|[x w] r IH]; simpl.
  - now rewrite N.
  - destruct (str_eqb k x) eqn:E; simpl.
    + apply str_eqb_eq in E; subst x. now rewrite N.
    + now rewrite IH.
Qed.

Lemma dict_get_insertions {V : Type} (items : list (str * V))
    (d : pydict V) (k : str) (v : V) :
  dict_get k (fold_left (fun d kv => dict_set (fst kv) (snd kv) d) items d)
  = Some v ->
  In (k, v) items \/ dict_get k d = Some v.
Proof.
  revert d; induction items as [|[x w] r IH]; intros d; simpl.
  - intros E; right; exact E.
  - intros E. apply IH in E. destruct E as [E|E]; [left; right; exact E|].
    destruct (str_eqb k x) eqn:F.
    + apply str_eqb_eq in F; subst x. rewrite dict_get_set_same in E.
      inversion E; subst. left; left; reflexivity.
    + apply str_eqb_neq in F. rewrite (dict_get_set_other w d F) in E.
      right; exact E.
Qed.

(** *** The remote path *)

Lemma remote_path_returned (location : str) (handle : option client)
    (text : str) :
  remote_path location handle = Return text -> exists t, text = strip t.
Proof.
  unfold remote_path. intros E.
  match type of E with rbind ?x _ = _ => destruct x as [rc|] end;
    simpl in E; [|discriminate].
  destruct (agents_create rc _agent_payload) as [agent|];
    simpl in E; [|discriminate].
  destruct (stream_turn rc agent location tool_resolver) as [[r|]|];
    simpl in E; try discriminate.
  destruct (output_text rc r) as [t|]; simpl in E; [|discriminate].
  inversion E. eauto.
Qed.

Lemma remote_path_falsy (location : str) (c : client) :
  client_bool c = Return false ->
  remote_path location (Some c) = remote_path location None.
Proof. unfold remote_path. now intros ->. Qed.

(** X1.  When the default client cannot be constructed -- the stub bound
    to [OpenAI] without the SDK raises [RuntimeError] -- [query_weather]
    called with no handle, or with a handle that tests false, answers as
    [lookup] on [SIMULATED_DATASET] does. *)
Theorem query_weather_without_runtime (location : str) (e0 : exn) :
  OpenAI = Raise e0 ->
  is_Exception e0 = true ->
  query_weather location None = lookup SIMULATED_DATASET location
  /\ (forall c : client,
         client_bool c = Return false ->
         query_weather location (Some c)
         = lookup SIMULATED_DATASET location).
Proof.
  intros E H.
  assert (A : query_weather location None = lookup SIMULATED_DATASET location).
  { unfold query_weather.
    exact (try_except_caught _ (remote_path_no_runtime location E) H). }
  split; [exact A|].
  intros c F. unfold query_weather. rewrite (remote_path_falsy location c F).
  exact A.
Qed.

(** X2.  When every step of the remote path succeeds, [query_weather]
    returns the answer's [output_text] stripped of surrounding whitespace,
    whatever the location is: an empty location is not rejected then. *)
Theorem query_weather_remote_success
    (location : str) (c : client) (agent : Agent) (stream : Stream)
    (response : Response) (suppress : bool) (text : str) :
  client_bool c = Return true ->
  agents_create c _agent_payload = Return agent ->
  responses_stream c (agent_id c agent)
    [ {| role := u "user"; content := location |} ] tool_resolver
  = Return stream ->
  until_done c stream = Return tt ->
  get_final_response c stream = Return response ->
  stream_exit c stream None = Return suppress ->
  output_text c response = Return text ->
  query_weather location (Some c) = Return (strip text).
Proof.
  intros Hb Hc Hs Hu Hg Hx Ho.
  unfold query_weather, remote_path, stream_turn.
  rewrite Hb; simpl. rewrite Hc; simpl. rewrite Hs; simpl.
  rewrite Hu; simpl. rewrite Hg; simpl. rewrite Hx; simpl.
  now rewrite Ho.
Qed.

(** X3.  Whatever [query_weather] returns from the remote path has no
    surrounding whitespace. *)
Theorem remote_answer_is_stripped
    (location : str) (handle : option client) (text : str) :
  remote_path location handle = Return text ->
  query_weather location handle = Return text /\ strip text = text.
Proof.
  intros E. split.
  - unfold query_weather. exact (try_except_returned _ E).
  - apply remote_path_returned in E. destruct E as [t ->]. apply strip_idem.
Qed.

(** X4.  When the block of the [with] statement raises and the stream's
    [__exit__] suppresses the exception, [final_response] is left
    unbound: the remote path raises [UnboundLocalError] and
    [query_weather] answers with the direct lookup -- also when the
    suppressed exception was not derived from [Exception]. *)
Theorem swallowed_exception_falls_back
    (location : str) (c : client) (agent : Agent) (stream : Stream)
    (e : exn) :
  client_bool c = Return true ->
  agents_create c _agent_payload = Return agent ->
  responses_stream c (agent_id c agent)
    [ {| role := u "user"; content := location |} ] tool_resolver
  = Return stream ->
  until_done c stream = Raise e ->
  stream_exit c stream (Some e) = Return true ->
  remote_path location (Some c) = Raise UnboundLocalError
  /\ query_weather location (Some c) = lookup SIMULATED_DATASET location.
Proof.
  intros Hb Hc Hs Hu Hx.
  assert (R : remote_path location (Some c) = Raise UnboundLocalError).
  { unfold remote_path, stream_turn.
    rewrite Hb; simpl. rewrite Hc; simpl. rewrite Hs; simpl.
    rewrite Hu; simpl. now rewrite Hx. }
  split; [exact R|].
  unfold query_weather. now rewrite (try_except_caught _ R).
Qed.

(** X5.  For a tool call whose "location" argument has a string form that
    is not empty after trimming, the resolver does not fail: it returns
    the lookup of that string on [SIMULATED_DATASET], under the
    identifier of the tool call it was given. *)
Theorem tool_resolver_answers (tool_call : ToolCall pyobj) (v : pyobj) :
  dict_get (u "location") (tc_arguments tool_call) = Some v ->
  strip (py_str v) <> [] ->
  exists text,
    lookup SIMULATED_DATASET (py_str v) = Return text
    /\ tool_resolver tool_call
       = Return {| tool_call_id := tc_id tool_call; output := text |}.
Proof using lower_nonempty.
  intros G N.
  destruct (lookup_outcome SIMULATED_DATASET (py_str v))
    as [[K _]|[_ [text E]]].
  - exfalso. apply N. now apply lower_strip_nil_inv.
  - exists text. split; [exact E|].
    unfold tool_resolver, _resolve_weather_tool. rewrite G, E. reflexivity.
Qed.

(** X6.  [lookup] raises exactly on the locations made of whitespace
    only, the empty string among them. *)
Theorem lookup_raises_iff_whitespace
    (self : WeatherDataset) (location : str) :
  (exists e, lookup self location = Raise e)
  <-> forallb isspace location = true.
Proof using lower_nil lower_nonempty.
  rewrite <- strip_nil_iff.
  destruct (lookup_outcome self location) as [[K E]|[K [text E]]].
  - apply lower_strip_nil_inv in K. split; [intros _; exact K | eauto].
  - split.
    + intros [e F]. rewrite E in F; discriminate.
    + intros S. exfalso. apply K. now apply lower_strip_nil.
Qed.

(** X7.  Whitespace around a location does not change which exit
    [lookup] takes: a location in the table gets the same text with or
    without the padding. *)
Theorem lookup_ignores_padding
    (self : WeatherDataset) (pre location post : str) :
  forallb isspace pre = true ->
  forallb isspace post = true ->
  lookup_branch self (pre ++ location ++ post) = lookup_branch self location
  /\ (dict_contains (lower (strip location)) (data self) = true ->
      lookup self (pre ++ location ++ post) = lookup self location).
Proof.
  intros Hpre Hpost.
  assert (B : lookup_branch self (pre ++ location ++ post)
              = lookup_branch self location).
  { unfold lookup_branch. now rewrite strip_padded. }
  split; [exact B|].
  intros G. rewrite !lookup_by_branch, B.
  unfold lookup_branch, dict_contains in *.
  destruct (lower (strip location)) as [|x n]; [reflexivity|].
  destruct (dict_get (x :: n) (data self)); [reflexivity | discriminate].
Qed.

(** X8.  Normalizing a location before the call changes nothing for a
    location in the table: [lookup] of [location.strip().lower()] takes
    the same exit as [lookup] of the location and returns the same text. *)
Theorem lookup_of_normalized (self : WeatherDataset) (location : str) :
  lookup_branch self (lower (strip location)) = lookup_branch self location
  /\ (dict_contains (lower (strip location)) (data self) = true ->
      lookup self (lower (strip location)) = lookup self location).
Proof using lower_idem lower_stripped.
  assert (B : lookup_branch self (lower (strip location))
              = lookup_branch self location).
  { unfold lookup_branch. now rewrite normalized_fixed. }
  split; [exact B|].
  intros G. rewrite !lookup_by_branch, B.
  unfold lookup_branch, dict_contains in *.
  destruct (lower (strip location)) as [|x n]; [reflexivity|].
  destruct (dict_get (x :: n) (data self)); [reflexivity | discriminate].
Qed.

(** X9.  Every location yielded by [iter_available_locations] that is
    non-empty and in normalized form is found by [lookup] on the same
    dataset, which returns a text inserted under that key and not the
    fallback. *)
Theorem available_location_is_found
    (items : list (str * str)) (keys : list str) (k : str) :
  iter_available_locations {| data := dict_of_items items |} = Return keys ->
  In k keys ->
  k <> [] ->
  lower (strip k) = k ->
  exists text,
    lookup {| data := dict_of_items items |} k = Return text
    /\ In (k, text) items.
Proof.
  intros E Hin Hne Hnorm.
  unfold iter_available_locations, run, iter_available_locations_m,
    data_keys in E; simpl in E.
  inversion E; subst keys.
  apply dict_get_keys in Hin. destruct Hin as [text G].
  exists text. split.
  - apply lookup_matched; rewrite Hnorm; [exact Hne | exact G].
  - unfold dict_of_items in G. apply dict_get_insertions in G.
    destruct G as [G|G]; [exact G | discriminate].
Qed.

(** X10.  Storing a text under a non-empty key changes [lookup] for the
    locations that normalize to that key, which now get that text, and
    for no other location. *)
Theorem lookup_after_set
    (self : WeatherDataset) (k v location : str) :
  k <> [] ->
  (lower (strip location) = k ->
   lookup {| data := dict_set k v (data self) |} location = Return v)
  /\ (lower (strip location) <> k ->
      lookup {| data := dict_set k v (data self) |} location
      = lookup self location).
Proof.
  intros Hne. split.
  - intros E. apply lookup_matched; rewrite E; simpl.
    + exact Hne.
    + apply dict_get_set_same.
  - intros N. rewrite !lookup_by_branch. unfold lookup_branch; simpl.
    now rewrite (dict_get_set_other v (data self) N).
Qed.


End WeatherAgent.

(* ================================================================== *)
(** ** The results at concrete inputs

    [ascii_lower] stands for [str.lower]: the inputs below are ASCII or
    CJK text, on which the two agree. *)

Lemma lookup_fallback_text_witness :
  lookup ascii_lower SIMULATED_DATASET (u " Berlin ")
  = Return (u " Berlin ：晴，25°C，微风")
  /\ (lookup ascii_lower SIMULATED_DATASET (u " Berlin ")
      = Return (strip (u " Berlin ") ++ u "：晴，25°C，微风")
      <-> strip (u " Berlin ") = u " Berlin ").
Proof.
  apply (@lookup_fallback_text ascii_lower SIMULATED_DATASET (u " Berlin ")).
  - vm_compute; discriminate.
  - vm_compute; reflexivity.
Defined.

(** C1, as stated, fails: on a location with leading whitespace the
    result starts with that whitespace, so it is not the trimmed location
    followed by anything, and in particular not by ": " and a descriptor. *)
Lemma lookup_fallback_not_trimmed :
  let self := {| data := dict_of_items [] |} in
  let location := u " X" in
  ascii_lower (strip location) <> []
  /\ dict_contains (ascii_lower (strip location)) (data self) = false
  /\ lookup ascii_lower self location = Return (u " X：晴，25°C，微风")
  /\ lookup ascii_lower self location
     <> Return (strip location ++ u "：晴，25°C，微风")
  /\ (forall rest : str,
         lookup ascii_lower self location <> Return (strip location ++ rest)).
Proof.
  vm_compute. repeat split; discriminate.
Qed.

Lemma lookup_raises_iff_blank_witness :
  let self := {| data := dict_of_items [] |} in
  ((exists e, lookup ascii_lower self (u "   ") = Raise e)
   <-> strip (u "   ") = [])
  /\ (strip (u "   ") = [] ->
      lookup ascii_lower self (u "   ")
      = Raise (ValueError (u "location 不能为空")))
  /\ (strip (u "   ") <> [] ->
      exists text, lookup ascii_lower self (u "   ") = Return text).
Proof.
  exact (@lookup_raises_iff_blank ascii_lower ascii_lower_nil
           ascii_lower_nonempty {| data := dict_of_items [] |} (u "   ")).
Defined.

Lemma lookup_known_key_witness :
  exists text,
    dict_get (ascii_lower (strip (u " 北京 "))) (data SIMULATED_DATASET)
    = Some text
    /\ lookup ascii_lower SIMULATED_DATASET (u " 北京 ") = Return text.
Proof.
  apply (@lookup_known_key ascii_lower SIMULATED_DATASET (u " 北京 ")).
  - vm_compute; discriminate.
  - vm_compute; reflexivity.
Defined.

(** C5, as stated, fails: a table may hold the empty string as a key, and
    a location empty after trimming is rejected before the table is
    read. *)
Lemma lookup_empty_key_rejected :
  let self := {| data := dict_of_items [ (u "", u "x") ] |} in
  let location := u "  " in
  dict_contains (ascii_lower (strip location)) (data self) = true
  /\ dict_get (ascii_lower (strip location)) (data self) = Some (u "x")
  /\ lookup ascii_lower self location
     = Raise (ValueError (u "location 不能为空"))
  /\ lookup ascii_lower self location <> Return (u "x").
Proof.
  vm_compute. repeat split; discriminate.
Qed.

Lemma lookup_unknown_location_witness :
  exists text,
    lookup ascii_lower SIMULATED_DATASET (u "不存在的城市") = Return text
    /\ text = u "不存在的城市" ++ u "：晴，25°C，微风"
    /\ startswith text (u "不存在的城市") = true.
Proof.
  apply (proj1 (@lookup_unknown_location ascii_lower ascii_lower_nonempty)).
  - vm_compute; discriminate.
  - vm_compute; reflexivity.
Defined.

(** C6, as stated, fails: a single space is a non-empty string, its
    normalized form is no key of the empty table, and [lookup] rejects
    it. *)
Lemma lookup_blank_unknown_rejected :
  let self := {| data := dict_of_items [] |} in
  let location := u " " in
  location <> []
  /\ dict_contains (ascii_lower (strip location)) (data self) = false
  /\ lookup ascii_lower self location
     = Raise (ValueError (u "location 不能为空"))
  /\ lookup ascii_lower self location
     <> Return (location ++ u "：晴，25°C，微风").
Proof.
  vm_compute. repeat split; discriminate.
Qed.

Lemma unnormalized_key_never_matches_witness :
  let self := {| data := dict_of_items [ (u "Paris", u "Paris: sunny") ] |} in
  (forall key text,
      lookup_branch ascii_lower self (u "Paris") = TableMatch key text ->
      key = ascii_lower (strip (u "Paris")) /\ key <> u "Paris")
  /\ lookup ascii_lower {| data := dict_del (u "Paris") (data self) |} (u "Paris")
     = lookup ascii_lower self (u "Paris").
Proof.
  apply (@unnormalized_key_never_matches ascii_lower ascii_lower_idem
           ascii_lower_stripped).
  left. vm_compute; discriminate.
Defined.

(** The handle of [test_query_weather_without_sdk_falls_back]. *)
Lemma query_weather_falls_back_witness :
  remote_path ascii_lower (fun s : str => s) (OpenAI_stub str unit unit unit)
    (u "深圳") (Some (DummyClient str))
  = Raise AttributeError
  /\ query_weather ascii_lower (fun s : str => s)
       (OpenAI_stub str unit unit unit) (u "深圳") (Some (DummyClient str))
     = lookup ascii_lower SIMULATED_DATASET (u "深圳").
Proof.
  split; [reflexivity|].
  apply (@query_weather_falls_back ascii_lower str (fun s : str => s)
           unit unit unit (OpenAI_stub str unit unit unit)
           (u "深圳") (Some (DummyClient str)) AttributeError);
    reflexivity.
Defined.

(** C2, as stated, fails: a step of the remote path that raises
    [KeyboardInterrupt] is not caught by [except Exception], so
    [query_weather] raises it where [lookup] returns the entry. *)
Lemma query_weather_interrupted :
  let handle := Some (InterruptedClient str) in
  let location := u "深圳" in
  remote_path ascii_lower (fun s : str => s) (OpenAI_stub str unit unit unit)
    location handle
  = Raise (SystemExiting "KeyboardInterrupt")
  /\ query_weather ascii_lower (fun s : str => s)
       (OpenAI_stub str unit unit unit) location handle
     = Raise (SystemExiting "KeyboardInterrupt")
  /\ lookup ascii_lower SIMULATED_DATASET location
     = Return (u "深圳：阴，29°C，湿度 70%")
  /\ query_weather ascii_lower (fun s : str => s)
       (OpenAI_stub str unit unit unit) location handle
     <> lookup ascii_lower SIMULATED_DATASET location.
Proof.
  vm_compute. repeat split; discriminate.
Qed.

Lemma blank_location_error_witness :
  lookup ascii_lower SIMULATED_DATASET (u "   ")
  = Raise (ValueError (u "location 不能为空"))
  /\ query_weather ascii_lower (fun s : str => s)
       (OpenAI_stub str unit unit unit) (u "   ") None
     = Raise (ValueError (u "location 不能为空"))
  /\ query_weather ascii_lower (fun s : str => s)
       (OpenAI_stub str unit unit unit) (u "   ") (Some (DummyClient str))
     = Raise (ValueError (u "location 不能为空")).
Proof.
  destruct (@blank_location_error ascii_lower str (fun s : str => s)
              unit unit unit (OpenAI_stub str unit unit unit)
              ascii_lower_nil ascii_lower_nonempty) as (A & B & _).
  split; [apply A; reflexivity|]. split.
  - apply (B (u "   ") None
             (RuntimeError (u "OpenAI SDK 未安装，无法创建真实 Agent")));
      reflexivity.
  - apply (B (u "   ") (Some (DummyClient str)) AttributeError); reflexivity.
Defined.

(** C4, as stated, fails: with a location empty after trimming and a
    remote path cut short by [KeyboardInterrupt], what leaves
    [query_weather] is that exception and not the [ValueError]. *)
Lemma blank_location_interrupted :
  let handle := Some (InterruptedClient str) in
  let location := u "   " in
  strip location = []
  /\ lookup ascii_lower SIMULATED_DATASET location
     = Raise (ValueError (u "location 不能为空"))
  /\ query_weather ascii_lower (fun s : str => s)
       (OpenAI_stub str unit unit unit) location handle
     = Raise (SystemExiting "KeyboardInterrupt")
  /\ query_weather ascii_lower (fun s : str => s)
       (OpenAI_stub str unit unit unit) location handle
     <> Raise (ValueError (u "location 不能为空")).
Proof.
  vm_compute. repeat split; discriminate.
Qed.



(* ================================================================== *)
(** ** The repository's tests *)

Example test_dataset_lookup_known_city :
  exists text,
    lookup ascii_lower SIMULATED_DATASET (u "北京") = Return text
    /\ startswith text (u "北京") = true.
Proof. eexists; split; vm_compute; reflexivity. Qed.

Example test_iter_available_locations :
  iter_available_locations SIMULATED_DATASET
  = Return [ u "北京"; u "上海"; u "广州"; u "深圳"; u "成都" ].
Proof. vm_compute; reflexivity. Qed.

Example test_weather_dataset_rejects_empty_location :
  exists msg,
    lookup ascii_lower {| data := dict_of_items [] |} (u "   ")
    = Raise (ValueError msg).
Proof. eexists; vm_compute; reflexivity. Qed.

(** A runtime that completes: the answer is the tool's output, trimmed. *)
Example query_weather_relay_answer :
  let tool_call :=
    {| tc_id := u "call_1";
       tc_arguments := dict_of_items [ (u "location", u "上海") ] |} in
  query_weather ascii_lower (fun s : str => s)
    (OpenAI_stub str unit (result ToolOutput) str) (u "上海天气")
    (Some (RelayClient tool_call))
  = Return (u "上海：小雨，28°C，湿度 80%").
Proof. vm_compute; reflexivity. Qed.

(* ================================================================== *)
(** ** The further properties at concrete inputs *)

Lemma query_weather_without_runtime_witness :
  query_weather ascii_lower (fun s : str => s)
    (OpenAI_stub str unit unit unit) (u "深圳") None
  = lookup ascii_lower SIMULATED_DATASET (u "深圳")
  /\ query_weather ascii_lower (fun s : str => s)
       (OpenAI_stub str unit unit unit) (u "深圳") (Some (FalsyClient str))
     = lookup ascii_lower SIMULATED_DATASET (u "深圳").
Proof.
  destruct (@query_weather_without_runtime ascii_lower str (fun s : str => s)
              unit unit unit (OpenAI_stub str unit unit unit) (u "深圳")
              (RuntimeError (u "OpenAI SDK 未安装，无法创建真实 Agent"))
              eq_refl eq_refl) as [A B].
  split; [exact A | apply B; reflexivity].
Defined.

Lemma query_weather_remote_success_witness :
  let tool_call :=
    {| tc_id := u "call_1";
       tc_arguments := dict_of_items [ (u "location", u "上海") ] |} in
  query_weather ascii_lower (fun s : str => s)
    (OpenAI_stub str unit (result ToolOutput) str) (u "   ")
    (Some (RelayClient tool_call))
  = Return (strip (u "上海：小雨，28°C，湿度 80%")).
Proof.
  intros tool_call.
  apply (@query_weather_remote_success ascii_lower str (fun s : str => s)
           unit (result ToolOutput) str
           (OpenAI_stub str unit (result ToolOutput) str)
           (u "   ") (RelayClient tool_call) tt
           (Return {| tool_call_id := u "call_1";
                      output := u "上海：小雨，28°C，湿度 80%" |})
           (u "上海：小雨，28°C，湿度 80%") false
           (u "上海：小雨，28°C，湿度 80%"));
    reflexivity.
Defined.

Lemma remote_answer_is_stripped_witness :
  let tool_call :=
    {| tc_id := u "call_1";
       tc_arguments := dict_of_items [ (u "location", u "上海") ] |} in
  query_weather ascii_lower (fun s : str => s)
    (OpenAI_stub str unit (result ToolOutput) str) (u "上海")
    (Some (RelayClient tool_call))
  = Return (u "上海：小雨，28°C，湿度 80%")
  /\ strip (u "上海：小雨，28°C，湿度 80%") = u "上海：小雨，28°C，湿度 80%".
Proof.
  intros tool_call.
  apply (@remote_answer_is_stripped ascii_lower str (fun s : str => s)
           unit (result ToolOutput) str
           (OpenAI_stub str unit (result ToolOutput) str)
           (u "上海") (Some (RelayClient tool_call))).
  reflexivity.
Defined.

Lemma swallowed_exception_falls_back_witness :
  remote_path ascii_lower (fun s : str => s)
    (OpenAI_stub str unit unit str) (u "广州") (Some (SwallowingClient str))
  = Raise UnboundLocalError
  /\ query_weather ascii_lower (fun s : str => s)
       (OpenAI_stub str unit unit str) (u "广州")
       (Some (SwallowingClient str))
     = lookup ascii_lower SIMULATED_DATASET (u "广州").
Proof.
  apply (@swallowed_exception_falls_back ascii_lower str (fun s : str => s)
           unit unit str (OpenAI_stub str unit unit str)
           (u "广州") (SwallowingClient str) tt tt
           (SystemExiting "KeyboardInterrupt"));
    reflexivity.
Defined.

Lemma tool_resolver_answers_witness :
  let tool_call :=
    {| tc_id := u "call_7";
       tc_arguments := dict_of_items [ (u "location", u " 北京") ] |} in
  exists text,
    lookup ascii_lower SIMULATED_DATASET (u " 北京") = Return text
    /\ tool_resolver ascii_lower (fun s : str => s) tool_call
       = Return {| tool_call_id := u "call_7"; output := text |}.
Proof.
  intros tool_call.
  apply (@tool_resolver_answers ascii_lower str (fun s : str => s)
           ascii_lower_nonempty tool_call (u " 北京")).
  - reflexivity.
  - vm_compute; discriminate.
Defined.

Lemma lookup_raises_iff_whitespace_witness :
  (exists e, lookup ascii_lower SIMULATED_DATASET [0x20; 0x09; 0x3000] = Raise e)
  <-> forallb isspace [0x20; 0x09; 0x3000] = true.
Proof.
  exact (@lookup_raises_iff_whitespace ascii_lower ascii_lower_nil
           ascii_lower_nonempty SIMULATED_DATASET [0x20; 0x09; 0x3000]).
Defined.

Lemma lookup_ignores_padding_witness :
  lookup_branch ascii_lower SIMULATED_DATASET (u "  " ++ u "北京" ++ [0x0A])
  = lookup_branch ascii_lower SIMULATED_DATASET (u "北京")
  /\ (dict_contains (ascii_lower (strip (u "北京"))) (data SIMULATED_DATASET)
      = true ->
      lookup ascii_lower SIMULATED_DATASET (u "  " ++ u "北京" ++ [0x0A])
      = lookup ascii_lower SIMULATED_DATASET (u "北京")).
Proof.
  apply (@lookup_ignores_padding ascii_lower SIMULATED_DATASET
           (u "  ") (u "北京") [0x0A]); reflexivity.
Defined.

Lemma lookup_of_normalized_witness :
  let self := {| data := dict_of_items [ (u "paris", u "Paris: rain") ] |} in
  lookup_branch ascii_lower self (ascii_lower (strip (u " PARIS ")))
  = lookup_branch ascii_lower self (u " PARIS ")
  /\ (dict_contains (ascii_lower (strip (u " PARIS "))) (data self) = true ->
      lookup ascii_lower self (ascii_lower (strip (u " PARIS ")))
      = lookup ascii_lower self (u " PARIS ")).
Proof.
  exact (@lookup_of_normalized ascii_lower ascii_lower_idem
           ascii_lower_stripped
           {| data := dict_of_items [ (u "paris", u "Paris: rain") ] |}
           (u " PARIS ")).
Defined.

Lemma available_location_is_found_witness :
  let items := [ (u "paris", u "Paris: rain"); (u "oslo", u "Oslo: snow");
                 (u "paris", u "Paris: sun") ] in
  exists text,
    lookup ascii_lower {| data := dict_of_items items |} (u "paris")
    = Return text
    /\ In (u "paris", text) items.
Proof.
  intros items.
  apply (@available_location_is_found ascii_lower items
           [ u "paris"; u "oslo" ] (u "paris")).
  - reflexivity.
  - left; reflexivity.
  - vm_compute; discriminate.
  - reflexivity.
Defined.

Lemma lookup_after_set_witness :
  (ascii_lower (strip (u " Paris ")) = u "paris" ->
   lookup ascii_lower
     {| data := dict_set (u "paris") (u "Paris: rain") (data SIMULATED_DATASET) |}
     (u " Paris ")
   = Return (u "Paris: rain"))
  /\ (ascii_lower (strip (u " Paris ")) <> u "paris" ->
      lookup ascii_lower
        {| data := dict_set (u "paris") (u "Paris: rain")
                     (data SIMULATED_DATASET) |}
        (u " Paris ")
      = lookup ascii_lower SIMULATED_DATASET (u " Paris ")).
Proof.
  apply (@lookup_after_set ascii_lower SIMULATED_DATASET
           (u "paris") (u "Paris: rain") (u " Paris ")).
  vm_compute; discriminate.
Defined.

